(** * GradNodeAccumulation: the gradient accumulation node of the eager
      autograd engine

    Source: paddle/fluid/eager/accumulation/accumulation_node.h

    The header gives the class, its constructor, the inline methods
    [ClearTensorWrappers], [name], [ReduceHooksRegistered], [Copy] and
    [SetFakeEmpty], and the private fields.  The bodies of [operator()],
    [RegisterReduceHook] and [ApplyReduceHooks] live in the .cc file; they
    are modelled from the written specification and marked as such. *)

From Stdlib Require Import ZArith.
From stdpp Require Import gmap strings list fin_maps.

Open Scope Z_scope.

(** ** Errors and results *)

(** The error taxonomy of the node.  [HookFailure] stands for whatever a
    user callable raises. *)
Inductive Error :=
| ShapeMismatch
| TypeMismatch
| InvalidArity
| HookFailure (code : Z).

Inductive Result (A : Type) :=
| Ok (a : A)
| Err (e : Error).
Arguments Ok {A} a.
Arguments Err {A} e.

(** ** The tensor kernel (external collaborator) *)

(** Why two operands cannot be combined. *)
Inductive Mismatch := BadShape | BadDtype.

Definition mismatch_error (k : Mismatch) : Error :=
  match k with
  | BadShape => ShapeMismatch
  | BadDtype => TypeMismatch
  end.

(** [paddle::Tensor] and its elementwise addition are declared outside this
    header; the node only needs a default-constructed (undefined) tensor and
    an addition that either yields a tensor or reports a mismatch. *)
Class TensorKernel := {
  Tensor : Type;
  empty_tensor : Tensor;
  tensor_add : Tensor -> Tensor -> Tensor + Mismatch
}.

(** ** Leaf gradient storage and weak references *)

(** [std::weak_ptr<paddle::Tensor>]: either default-constructed ([None]) or
    pointing at a storage cell; the cell may have been destroyed since. *)
Definition weak_ptr := option positive.

(** Modelled from the spec: [AutogradMeta] is declared in autograd_meta.h,
    which is not part of the sources at hand.  It owns the leaf's gradient
    storage, and [WeakGrad] hands out a weak reference to it. *)
Record AutogradMeta := { grad_ : positive }.

Definition WeakGrad (meta : AutogradMeta) : weak_ptr := Some (grad_ meta).

(** Process-wide state read by the constructor: the flag declared by
    [COMMON_DECLARE_int32(call_stack_level)] and the call stack that
    [egr::Controller::Instance().GetPythonStack()] returns. *)
Record Globals := {
  FLAGS_call_stack_level : Z;
  GetPythonStack : string
}.

Section Node.
Context `{K : TensorKernel}.

(** The part of the program state that user callables may read and write. *)
Variable World : Type.

(** Live gradient cells. *)
Abbreviation TensorHeap := (gmap positive Tensor).

(** [weak_grad_.expired()] *)
Definition expired (heap : TensorHeap) (r : weak_ptr) : bool :=
  match r with
  | None => true
  | Some l => match heap !! l with
              | None => true
              | Some _ => false
              end
  end.

(** ** Hooks *)

(** Modelled from the spec: [VoidHook] is declared in hooks.h, which is not
    part of the sources at hand.  A reduce hook takes the final accumulated
    gradient, returns nothing, and acts on the world; it may raise.
    [hook_id] stands for the identity of the shared callable. *)
Record VoidHook := {
  hook_id : nat;
  hook_call : Tensor -> World -> Result unit * World
}.

(** [std::function<paddle::Tensor(const paddle::Tensor&)>]; like any user
    callable it may act on the world and may raise. *)
Definition RetainGradHook := Tensor -> World -> Result Tensor * World.

(** ** The node *)

(** The first three fields are what the node inherits from [GradNodeBase]:
    the slot counts given to [GradNodeBase(1, 1)] and the forward trace. *)
Record GradNodeAccumulation := {
  bwd_in_slot_num : nat;
  bwd_out_slot_num : nat;
  forward_trace_ : option string;
  is_fake_empty_ : bool;
  weak_grad_ : weak_ptr;
  reduce_hooks_ : list VoidHook;
  retain_grad_hook_ : option RetainGradHook
}.

Definition arity (n : GradNodeAccumulation) : nat * nat :=
  (bwd_in_slot_num n, bwd_out_slot_num n).

(** Modelled from the spec: [GradNodeBase::SetDefaultGradInOutMeta] is
    declared in grad_node_info.h, which is not part of the sources at hand.
    It fills in the metadata of the one input and the one output slot and
    leaves the number of slots alone. *)
Definition SetDefaultGradInOutMeta (n : GradNodeAccumulation)
  : GradNodeAccumulation := n.

(** [explicit GradNodeAccumulation(AutogradMeta* meta) : GradNodeBase(1, 1)];
    [meta = None] is the null pointer.  The members not assigned in the body
    keep their default initialisers. *)
Definition new_GradNodeAccumulation (g : Globals) (meta : option AutogradMeta)
  : GradNodeAccumulation :=
  SetDefaultGradInOutMeta
    {| bwd_in_slot_num := 1;
       bwd_out_slot_num := 1;
       forward_trace_ :=
         if FLAGS_call_stack_level g =? 3 then Some (GetPythonStack g) else None;
       is_fake_empty_ := false;
       weak_grad_ := match meta with
                     | Some mt => WeakGrad mt
                     | None => None
                     end;
       reduce_hooks_ := [];
       retain_grad_hook_ := None |}.

(** [void ClearTensorWrappers() override { VLOG(5) << "Do nothing here now"; }] *)
Definition ClearTensorWrappers (n : GradNodeAccumulation)
  : GradNodeAccumulation := n.

(** [std::string name() override] *)
Definition name (n : GradNodeAccumulation) : string := "GradNodeAccumulation".

(** [inline bool ReduceHooksRegistered() { return reduce_hooks_.size() != 0; }] *)
Definition ReduceHooksRegistered (n : GradNodeAccumulation) : bool :=
  negb (length (reduce_hooks_ n) =? 0)%nat.

(** [std::shared_ptr<GradNodeBase> Copy() const]: a node built by the
    constructor from the null pointer; nothing of [n] is read. *)
Definition Copy (g : Globals) (n : GradNodeAccumulation)
  : GradNodeAccumulation :=
  new_GradNodeAccumulation g None.

(** [void SetFakeEmpty(bool is_fake_empty)] *)
Definition SetFakeEmpty (b : bool) (n : GradNodeAccumulation)
  : GradNodeAccumulation :=
  {| bwd_in_slot_num := bwd_in_slot_num n;
     bwd_out_slot_num := bwd_out_slot_num n;
     forward_trace_ := forward_trace_ n;
     is_fake_empty_ := b;
     weak_grad_ := weak_grad_ n;
     reduce_hooks_ := reduce_hooks_ n;
     retain_grad_hook_ := retain_grad_hook_ n |}.

(** Modelled from the spec: the body of [RegisterReduceHook] is in the .cc
    file, which is not part of the sources at hand.  It appends the hook to
    the list and never rejects one. *)
Definition RegisterReduceHook (h : VoidHook) (n : GradNodeAccumulation)
  : GradNodeAccumulation :=
  {| bwd_in_slot_num := bwd_in_slot_num n;
     bwd_out_slot_num := bwd_out_slot_num n;
     forward_trace_ := forward_trace_ n;
     is_fake_empty_ := is_fake_empty_ n;
     weak_grad_ := weak_grad_ n;
     reduce_hooks_ := reduce_hooks_ n ++ [h];
     retain_grad_hook_ := retain_grad_hook_ n |}.

(** ** Running an invocation: state, errors and the observation trace *)

(** What an invocation does, in the order it does it: a kernel addition, an
    application of the retain-grad transform to [x], a call of the reduce
    hook [id] on the value [v]. *)
Inductive Event :=
| EvAdd (a b : Tensor)
| EvRetainGrad (x : Tensor)
| EvReduceHook (id : nat) (v : Tensor).

Record Machine := {
  world : World;
  trace : list Event
}.

(** State that survives an error, as with a C++ exception. *)
Definition M (A : Type) : Type := Machine -> Result A * Machine.

#[local] Instance M_ret : MRet M := fun A a m => (Ok a, m).

#[local] Instance M_bind : MBind M := fun A B k c m =>
  match c m with
  | (Ok a, m') => k a m'
  | (Err e, m') => (Err e, m')
  end.

Definition throw {A} (e : Error) : M A := fun m => (Err e, m).

Definition emit (ev : Event) : M unit := fun m =>
  (Ok tt, {| world := world m; trace := trace m ++ [ev] |}).

(** Run a user callable on the world. *)
Definition user {A} (f : World -> Result A * World) : M A := fun m =>
  let (r, w) := f (world m) in (r, {| world := w; trace := trace m |}).

Definition kernel_add (a b : Tensor) : M Tensor :=
  _ ← emit (EvAdd a b);
  match tensor_add a b with
  | inl s => mret s
  | inr k => throw (mismatch_error k)
  end.

Definition call_retain_grad_hook (f : RetainGradHook) (x : Tensor) : M Tensor :=
  _ ← emit (EvRetainGrad x); user (f x).

Definition call_reduce_hook (h : VoidHook) (v : Tensor) : M unit :=
  _ ← emit (EvReduceHook (hook_id h) v); user (hook_call h v).

(** ** The accumulation algorithm *)

(** The elementwise sum of the values of one slot as a plain function,
    left to right: nothing gives the undefined tensor, one value is that
    value, and the first mismatch is an error.  [accumulate] below is the
    same walk run on the machine. *)
Fixpoint sum_onto (acc : Tensor) (rest : list Tensor) : Result Tensor :=
  match rest with
  | [] => Ok acc
  | t :: rest' =>
      match tensor_add acc t with
      | inl s => sum_onto s rest'
      | inr k => Err (mismatch_error k)
      end
  end.

Definition elementwise_sum (slot : list Tensor) : Result Tensor :=
  match slot with
  | [] => Ok empty_tensor
  | t :: rest => sum_onto t rest
  end.

Fixpoint add_onto (acc : Tensor) (rest : list Tensor) : M Tensor :=
  match rest with
  | [] => mret acc
  | t :: rest' => s ← kernel_add acc t; add_onto s rest'
  end.

(** Modelled from the spec: step 2 of the compute contract.  Zero incoming
    values yield an empty result, one value is returned as it is, more are
    added up. *)
Definition accumulate (slot : list Tensor) : M Tensor :=
  match slot with
  | [] => mret empty_tensor
  | t :: rest => add_onto t rest
  end.

(** Modelled from the spec: part of the absent body of [operator()].  The
    node has one input slot; any other number of slots is a caller's error,
    InvalidArity. *)
Definition single_slot (grads : list (list Tensor)) : M (list Tensor) :=
  match grads with
  | [slot] => mret slot
  | _ => throw InvalidArity
  end.

Fixpoint apply_hooks (hooks : list VoidHook) (v : Tensor) : M unit :=
  match hooks with
  | [] => mret tt
  | h :: hooks' => _ ← call_reduce_hook h v; apply_hooks hooks' v
  end.

(** Modelled from the spec: the body of [ApplyReduceHooks] is in the .cc
    file, which is not part of the sources at hand.  Every registered hook
    is called in registration order on the final value; the first one that
    raises stops the walk.  The header's signature has no parameter; the
    value the hooks receive is passed here explicitly. *)
Definition ApplyReduceHooks (n : GradNodeAccumulation) (v : Tensor) : M unit :=
  apply_hooks (reduce_hooks_ n) v.

(** Modelled from the spec: step 3 of the compute contract, part of the
    absent body of [operator()].  A registered transform is applied to the
    accumulated value; without one the value is final as it is. *)
Definition retain_grad (n : GradNodeAccumulation) (acc : Tensor) : M Tensor :=
  match retain_grad_hook_ n with
  | Some f => call_retain_grad_hook f acc
  | None => mret acc
  end.

(** Modelled from the spec: the body of [operator()] is in the .cc file,
    which is not part of the sources at hand.  The compute contract, steps
    1 to 5: a fake-empty node produces the undefined tensor for its one
    output slot and does nothing else; otherwise the values of the one input
    slot are accumulated, the retain-grad transform (if any) is applied
    once, the reduce hooks run on the final value, and the final value is
    the one element of the one output slot.  The contract gives
    [create_graph] and [is_new_grad] no effect on the value, and never
    consults [weak_grad_] or writes to the node. *)
Definition operator_call (n : GradNodeAccumulation)
    (grads : list (list Tensor)) (create_graph is_new_grad : bool)
  : M (list (list Tensor)) :=
  if is_fake_empty_ n then mret [[empty_tensor]]
  else
    slot ← single_slot grads;
    acc ← accumulate slot;
    final ← retain_grad n acc;
    _ ← ApplyReduceHooks n final;
    mret [[final]].

(** ** Nodes as shared objects *)

(** Nodes are held through [std::shared_ptr]; the store maps the address of
    each live node to its current state. *)
Abbreviation NodeStore := (gmap positive GradNodeAccumulation).

(** [new]: the node is placed at an address not in use. *)
Definition alloc (n : GradNodeAccumulation) (st : NodeStore)
  : positive * NodeStore :=
  let p := fresh (dom st) in (p, <[p := n]> st).

(** [p->Copy()] *)
Definition Copy_at (g : Globals) (p : positive) (st : NodeStore)
  : option (positive * NodeStore) :=
  match st !! p with
  | Some n => Some (alloc (Copy g n) st)
  | None => None
  end.

(** [p->RegisterReduceHook(std::move(h))] *)
Definition RegisterReduceHook_at (p : positive) (h : VoidHook) (st : NodeStore)
  : NodeStore :=
  alter (RegisterReduceHook h) p st.

(** The operations of the node's public interface, each on the node at an
    address. *)
Inductive Op :=
| OpCall (p : positive) (grads : list (list Tensor))
         (create_graph is_new_grad : bool)
| OpClearTensorWrappers (p : positive)
| OpRegisterReduceHook (p : positive) (h : VoidHook)
| OpApplyReduceHooks (p : positive) (v : Tensor)
| OpCopy (p : positive)
| OpSetFakeEmpty (p : positive) (b : bool).

(** One operation on the store and the machine.  User callables act on the
    world only; an operation on an address that holds no node does
    nothing. *)
Definition step (g : Globals) (op : Op) (c : NodeStore * Machine)
  : NodeStore * Machine :=
  let (st, m) := c in
  match op with
  | OpCall p grads cg ng =>
      match st !! p with
      | Some n => (st, (operator_call n grads cg ng m).2)
      | None => c
      end
  | OpClearTensorWrappers p => (alter ClearTensorWrappers p st, m)
  | OpRegisterReduceHook p h => (RegisterReduceHook_at p h st, m)
  | OpApplyReduceHooks p v =>
      match st !! p with
      | Some n => (st, (ApplyReduceHooks n v m).2)
      | None => c
      end
  | OpCopy p =>
      match Copy_at g p st with
      | Some (_, st') => (st', m)
      | None => c
      end
  | OpSetFakeEmpty p b => (alter (SetFakeEmpty b) p st, m)
  end.

Definition run (g : Globals) (ops : list Op) (c : NodeStore * Machine)
  : NodeStore * Machine :=
  foldl (fun c op => step g op c) c ops.

(** The hooks handed to [RegisterReduceHook] on the node at [p], in order. *)
Definition registered_on (p : positive) (ops : list Op) : list VoidHook :=
  omap (fun op => match op with
                  | OpRegisterReduceHook q h =>
                      if decide (q = p) then Some h else None
                  | _ => None
                  end) ops.

Definition is_add_event (ev : Event) : bool :=
  match ev with
  | EvAdd _ _ => true
  | _ => false
  end.

(** [RegisterReduceHook] called once for each hook of [hs], first to last. *)
Definition register_all (hs : list VoidHook) (n : GradNodeAccumulation)
  : GradNodeAccumulation :=
  foldl (fun n h => RegisterReduceHook h n) n hs.

(** The operations whose bodies the header itself gives:
    [ClearTensorWrappers], [Copy] and [SetFakeEmpty]. *)
Definition inline_op (op : Op) : bool :=
  match op with
  | OpClearTensorWrappers _ => true
  | OpCopy _ => true
  | OpSetFakeEmpty _ _ => true
  | _ => false
  end.

(** The argument of the last [SetFakeEmpty] among [ops] that addresses the
    node at [p], or [b] when there is none. *)
Definition last_fake_empty (p : positive) (ops : list Op) (b : bool) : bool :=
  foldl (fun b op => match op with
                     | OpSetFakeEmpty q b' => if decide (q = p) then b' else b
                     | _ => b
                     end) b ops.

End Node.

Arguments Build_VoidHook {K World} hook_id hook_call.
Arguments hook_id {K World} v.
Arguments hook_call {K World} v t w.
Arguments Build_GradNodeAccumulation {K World}.
Arguments bwd_in_slot_num {K World} g.
Arguments bwd_out_slot_num {K World} g.
Arguments forward_trace_ {K World} g.
Arguments is_fake_empty_ {K World} g.
Arguments weak_grad_ {K World} g.
Arguments reduce_hooks_ {K World} g.
Arguments retain_grad_hook_ {K World} g.
Arguments Build_Machine {K World} world trace.
Arguments world {K World} m.
Arguments trace {K World} m.
Arguments arity {K World} n.
Arguments new_GradNodeAccumulation {K} World g meta.
Arguments ClearTensorWrappers {K World} n.
Arguments name {K World} n.
Arguments ReduceHooksRegistered {K World} n.
Arguments Copy {K World} g n.
Arguments SetFakeEmpty {K World} b n.
Arguments RegisterReduceHook {K World} h n.
Arguments ApplyReduceHooks {K World} n v _.
Arguments operator_call {K World} n grads create_graph is_new_grad _.
Arguments alloc {K World} n st.
Arguments Copy_at {K World} g p st.
Arguments RegisterReduceHook_at {K World} p h st.
Arguments OpCall {K World} p grads create_graph is_new_grad.
Arguments OpClearTensorWrappers {K World} p.
Arguments OpRegisterReduceHook {K World} p h.
Arguments OpApplyReduceHooks {K World} p v.
Arguments OpCopy {K World} p.
Arguments OpSetFakeEmpty {K World} p b.
Arguments step {K World} g op c.
Arguments run {K World} g ops c.
Arguments registered_on {K World} p ops.
Arguments register_all {K World} hs n.
Arguments inline_op {K World} op.
Arguments last_fake_empty {K World} p ops b.
Arguments accumulate {K World} slot _.
Arguments add_onto {K World} acc rest _.
Arguments apply_hooks {K World} hooks v _.
Arguments retain_grad {K World} n acc _.
Arguments single_slot {K World} grads _.
Arguments kernel_add {K World} a b _.
Arguments call_reduce_hook {K World} h v _.
Arguments call_retain_grad_hook {K World} f x _.

(** ** A concrete kernel and sample objects *)

Module Sample.

Inductive DataType := FLOAT32 | INT64.

#[local] Instance DataType_eq_dec : EqDecision DataType.
Proof. solve_decision. Defined.

(** A dense tensor: element type, shape, and the elements in row-major
    order (integers stand for the payload). *)
Record DenseTensor := {
  dtype : DataType;
  dims : list nat;
  data : list Z
}.

Inductive PTensor :=
| Undefined
| Defined (d : DenseTensor).

(** Same element type and same shape, or a mismatch; an undefined operand
    has no shape to match. *)
Definition dense_add (a b : PTensor) : PTensor + Mismatch :=
  match a, b with
  | Defined x, Defined y =>
      if decide (dtype x = dtype y) then
        if decide (dims x = dims y) then
          inl (Defined {| dtype := dtype x;
                          dims := dims x;
                          data := zip_with Z.add (data x) (data y) |})
        else inr BadShape
      else inr BadDtype
  | _, _ => inr BadShape
  end.

#[export] Instance dense_kernel : TensorKernel := {|
  Tensor := PTensor;
  empty_tensor := Undefined;
  tensor_add := dense_add
|}.

Definition filled (ty : DataType) (shape : list nat) (x : Z) : PTensor :=
  Defined {| dtype := ty;
             dims := shape;
             data := replicate (foldr Nat.mul 1%nat shape) x |}.

(** The world of the samples: a journal the callables write to. *)
Definition Journal := list nat.

Definition journal_hook (id : nat) : VoidHook Journal :=
  {| hook_id := id;
     hook_call := fun _ w => (Ok tt, w ++ [id]) |}.

Definition globals0 : Globals :=
  {| FLAGS_call_stack_level := 0; GetPythonStack := "backward" |}.

Definition machine0 : Machine Journal :=
  {| world := []; trace := [] |}.

(** A node bound to the leaf whose gradient lives in cell 1. *)
Definition leaf_node : GradNodeAccumulation Journal :=
  new_GradNodeAccumulation Journal globals0 (Some {| grad_ := 1%positive |}).

(** A heap in which cell 1 is alive. *)
Definition heap1 : gmap positive PTensor :=
  {[ 1%positive := filled FLOAT32 [2; 2]%nat 0 ]}.

Definition ones22 : PTensor := filled FLOAT32 [2; 2]%nat 1.
Definition twos22 : PTensor := filled FLOAT32 [2; 2]%nat 2.
Definition threes22 : PTensor := filled FLOAT32 [2; 2]%nat 3.
Definition ones3 : PTensor := filled FLOAT32 [3]%nat 1.
Definition int_ones22 : PTensor := filled INT64 [2; 2]%nat 1.

Definition three_hooks : list (VoidHook Journal) :=
  [journal_hook 1; journal_hook 2; journal_hook 3].

(** The leaf's node after RegisterReduceHook was called three times. *)
Definition node_three_hooks : GradNodeAccumulation Journal :=
  register_all three_hooks leaf_node.

(** A store that holds the leaf's node at address 5. *)
Definition store1 : gmap positive (GradNodeAccumulation Journal) :=
  {[ 5%positive := leaf_node ]}.

(** Calls of the header's own operations, on the node at address 5 and on
    other addresses. *)
Definition flag_ops : list (Op Journal) :=
  [OpSetFakeEmpty 5%positive true; OpCopy 5%positive;
   OpClearTensorWrappers 5%positive; OpSetFakeEmpty 5%positive false;
   OpSetFakeEmpty 9%positive false; OpSetFakeEmpty 5%positive true;
   OpSetFakeEmpty 1%positive false].

End Sample.

(** * Properties *)

Section NodeFacts.
Context `{K : TensorKernel} {World : Type}.

Implicit Types (n : GradNodeAccumulation World) (m : Machine World).
Implicit Types (h : VoidHook World) (hs hooks : list (VoidHook World)).
Implicit Types (slot rest : list Tensor) (grads : list (list Tensor)).
Implicit Types (st : gmap positive (GradNodeAccumulation World)).
Implicit Types (op : Op World) (ops : list (Op World)).

Ltac unfold_M :=
  unfold mbind, M_bind, mret, M_ret, throw, emit, user in *; simpl in *.

(** ** The monadic steps against their pure readings *)

Lemma machine_eta m : {| world := world m; trace := trace m |} = m.
Proof. by destruct m. Qed.

Lemma add_onto_spec rest : forall acc m,
  exists adds,
    Forall (fun ev => is_add_event ev = true) adds /\
    add_onto acc rest m =
      (sum_onto acc rest, {| world := world m; trace := trace m ++ adds |}).
Proof.
  induction rest as [|t rest IH]; intros acc m.
  - exists []. split; [constructor|].
    simpl. unfold_M. by rewrite app_nil_r, machine_eta.
  - simpl. unfold kernel_add. unfold_M.
    destruct (tensor_add acc t) as [s|k].
    + destruct (IH s {| world := world m; trace := trace m ++ [EvAdd acc t] |})
        as (adds & Hadds & ->).
      exists (EvAdd acc t :: adds). split; [by constructor|].
      simpl. by rewrite <- app_assoc.
    + exists [EvAdd acc t]. split; [by repeat constructor|done].
Qed.

Lemma accumulate_spec slot m :
  exists adds,
    Forall (fun ev => is_add_event ev = true) adds /\
    accumulate slot m =
      (elementwise_sum slot, {| world := world m; trace := trace m ++ adds |}).
Proof.
  destruct slot as [|t rest].
  - exists []. split; [constructor|].
    simpl. unfold_M. by rewrite app_nil_r, machine_eta.
  - apply add_onto_spec.
Qed.

Lemma sum_onto_error rest : forall acc e,
  sum_onto acc rest = Err e -> e = ShapeMismatch \/ e = TypeMismatch.
Proof.
  induction rest as [|t rest IH]; intros acc e Hsum; simpl in Hsum.
  - discriminate.
  - destruct (tensor_add acc t) as [s|k]; [by eapply IH|].
    inversion Hsum. destruct k; simpl; auto.
Qed.

Lemma elementwise_sum_error slot e :
  elementwise_sum slot = Err e -> e = ShapeMismatch \/ e = TypeMismatch.
Proof.
  destruct slot as [|t rest]; simpl; [discriminate|apply sum_onto_error].
Qed.

(** ** The compute contract *)

(** C2: on a node whose fake-empty flag is set, every invocation returns the
    undefined tensor for the one output slot whatever the inputs are, and
    leaves the machine as it found it: no addition is performed, no
    callable runs, no error is raised. *)
Theorem fake_empty_short_circuit n grads cg ng m :
  is_fake_empty_ n = true ->
  operator_call n grads cg ng m = (Ok [[empty_tensor]], m).
Proof.
  intros Hfake. unfold operator_call. by rewrite Hfake.
Qed.

(** C6: on a node whose fake-empty flag is unset, an invocation whose one
    input slot holds tensors that cannot be added up fails with
    ShapeMismatch or TypeMismatch, the error of the first failing addition;
    there is no output, the world is untouched, and nothing but additions
    has taken place. *)
Theorem incompatible_gradients_are_fatal n slot e cg ng m :
  is_fake_empty_ n = false ->
  elementwise_sum slot = Err e ->
  (e = ShapeMismatch \/ e = TypeMismatch) /\
  exists adds,
    Forall (fun ev => is_add_event ev = true) adds /\
    operator_call n [slot] cg ng m =
      (Err e, {| world := world m; trace := trace m ++ adds |}).
Proof.
  intros Hfake Hsum. split; [by eapply elementwise_sum_error|].
  destruct (accumulate_spec slot m) as (adds & Hadds & Hacc).
  exists adds. split; [done|].
  unfold operator_call. rewrite Hfake. unfold single_slot.
  unfold mbind at 1, M_bind. unfold mret at 1, M_ret.
  unfold mbind at 1, M_bind. by rewrite Hacc, Hsum.
Qed.

(** C8, as amended: name() returns the class name. *)
Theorem name_is_class_name n : name n = "GradNodeAccumulation".
Proof. reflexivity. Qed.

(** ** Nodes in the store *)

Lemma ReduceHooksRegistered_nonempty n :
  ReduceHooksRegistered n = true <-> reduce_hooks_ n <> [].
Proof.
  unfold ReduceHooksRegistered. destruct (reduce_hooks_ n); simpl.
  - split; [discriminate|]. intros Hne. by destruct Hne.
  - split; [discriminate|done].
Qed.

Lemma alloc_fresh n st p :
  is_Some (st !! p) -> (alloc n st).1 <> p.
Proof.
  intros Hp Heq. unfold alloc in Heq. simpl in Heq.
  apply (is_fresh (dom st)). rewrite Heq. by apply elem_of_dom.
Qed.

Lemma alloc_lookup_new n st : (alloc n st).2 !! (alloc n st).1 = Some n.
Proof. unfold alloc. simpl. apply lookup_insert_eq. Qed.

Lemma alloc_lookup_old n st p :
  is_Some (st !! p) -> (alloc n st).2 !! p = st !! p.
Proof.
  intros Hp. unfold alloc. simpl. apply lookup_insert_ne.
  by apply (alloc_fresh n st p).
Qed.

Lemma registered_on_cons p op ops :
  registered_on p (op :: ops) = registered_on p [op] ++ registered_on p ops.
Proof.
  unfold registered_on. simpl.
  destruct op; simpl; try done. by case_decide.
Qed.

Lemma registered_on_elem p ops :
  registered_on p ops <> [] <-> exists h, OpRegisterReduceHook p h ∈ ops.
Proof.
  induction ops as [|op ops IH].
  - split; [done|]. intros [h Hin]. by apply elem_of_nil in Hin.
  - rewrite registered_on_cons. split.
    + intros Hne.
      destruct (registered_on p [op]) as [|h0 l] eqn:E.
      * simpl in Hne. apply IH in Hne as [h Hin]. exists h. by right.
      * destruct op; try discriminate. unfold registered_on in E. simpl in E.
        case_decide; [|discriminate]. subst. eexists. left.
    + intros [h Hin]. apply elem_of_cons in Hin as [<-|Hin].
      * unfold registered_on at 1. simpl. by rewrite decide_True.
      * intros Heq. apply app_eq_nil in Heq as [_ Heq].
        apply IH; [by exists h|done].
Qed.

(** One operation leaves every node of the store in place, with the slot
    counts it had and with its hook list extended by what was registered on
    it. *)
Lemma step_node g op st m p n :
  st !! p = Some n ->
  exists n',
    (step g op (st, m)).1 !! p = Some n' /\
    arity n' = arity n /\
    reduce_hooks_ n' = reduce_hooks_ n ++ registered_on p [op].
Proof.
  intros Hp. destruct op as [q grads cg ng|q|q h|q v|q|q b]; simpl.
  - exists n. rewrite app_nil_r. by destruct (st !! q).
  - exists n. rewrite app_nil_r. split; [|done].
    rewrite lookup_alter. case_decide; subst; by rewrite ?Hp.
  - unfold RegisterReduceHook_at, registered_on. simpl.
    rewrite lookup_alter. case_decide; subst.
    + exists (RegisterReduceHook h n). by rewrite Hp.
    + exists n. by rewrite app_nil_r.
  - exists n. rewrite app_nil_r. by destruct (st !! q).
  - exists n. rewrite app_nil_r. split; [|done].
    unfold Copy_at. destruct (st !! q) as [nq|]; [|done].
    destruct (alloc (Copy g nq) st) as [p' st'] eqn:E. simpl.
    replace st' with (alloc (Copy g nq) st).2 by by rewrite E.
    by rewrite alloc_lookup_old.
  - rewrite lookup_alter. case_decide; subst.
    + exists (SetFakeEmpty b n). by rewrite Hp, app_nil_r.
    + exists n. by rewrite app_nil_r.
Qed.

Lemma run_node g ops : forall st m p n,
  st !! p = Some n ->
  exists n',
    (run g ops (st, m)).1 !! p = Some n' /\
    arity n' = arity n /\
    reduce_hooks_ n' = reduce_hooks_ n ++ registered_on p ops.
Proof.
  induction ops as [|op ops IH]; intros st m p n Hp.
  - exists n. by rewrite app_nil_r.
  - destruct (step_node g op st m p n Hp) as (n1 & Hp1 & Har1 & Hh1).
    change (run g (op :: ops) (st, m)) with (run g ops (step g op (st, m))).
    destruct (step g op (st, m)) as [st1 m1] eqn:E.
    simpl in Hp1.
    destruct (IH st1 m1 p n1 Hp1) as (n' & Hp' & Har' & Hh').
    exists n'. split; [exact Hp'|]. split; [congruence|].
    by rewrite Hh', Hh1, (registered_on_cons p op ops), <- app_assoc.
Qed.

(** C5: Copy() on a node of the store yields a node at a new address whose
    weak leaf reference is unset whatever the original holds, whose
    fake-empty flag is false and whose hook list is empty; the original
    stays as it was, a hook registered on the clone leaves the original
    untouched, and a hook registered on the original leaves the clone
    untouched. *)
Theorem copy_is_unbound_and_independent g st p n :
  st !! p = Some n ->
  exists p' st' c,
    Copy_at g p st = Some (p', st') /\
    p' <> p /\
    st' !! p = Some n /\
    st' !! p' = Some c /\
    weak_grad_ c = None /\
    is_fake_empty_ c = false /\
    reduce_hooks_ c = [] /\
    (forall h,
        RegisterReduceHook_at p' h st' !! p = Some n /\
        RegisterReduceHook_at p' h st' !! p' = Some (RegisterReduceHook h c)) /\
    (forall h,
        RegisterReduceHook_at p h st' !! p' = Some c /\
        RegisterReduceHook_at p h st' !! p = Some (RegisterReduceHook h n)).
Proof.
  intros Hp.
  assert (Hne : (alloc (Copy g n) st).1 <> p) by by apply alloc_fresh.
  assert (Hold : (alloc (Copy g n) st).2 !! p = Some n)
    by by rewrite alloc_lookup_old.
  pose proof (alloc_lookup_new (Copy g n) st) as Hnew.
  exists (alloc (Copy g n) st).1, (alloc (Copy g n) st).2, (Copy g n).
  unfold Copy_at. rewrite Hp.
  split; [by destruct (alloc (Copy g n) st)|].
  repeat split; try done; unfold RegisterReduceHook_at.
  - by rewrite lookup_alter_ne.
  - by rewrite lookup_alter_eq, Hnew.
  - by rewrite lookup_alter_ne.
  - by rewrite lookup_alter_eq, Hold.
Qed.

(** C9: a node built by the constructor, from leaf metadata or from the
    null pointer, has one input slot and one output slot, and so has every
    clone; after any sequence of invocations, hook registrations, hook
    applications, SetFakeEmpty, Copy and ClearTensorWrappers calls, on it
    or on other nodes, it still has one of each. *)
Theorem arity_is_fixed g meta st ops m :
  let n0 := new_GradNodeAccumulation World g meta in
  arity n0 = (1, 1)%nat /\
  (forall n, arity (Copy g n) = (1, 1)%nat) /\
  exists n',
    (run g ops ((alloc n0 st).2, m)).1 !! (alloc n0 st).1 = Some n' /\
    arity n' = (1, 1)%nat.
Proof.
  intros n0. split; [done|]. split; [done|].
  destruct (run_node g ops _ m _ _ (alloc_lookup_new n0 st))
    as (n' & Hp & Har & _).
  exists n'. by rewrite Har.
Qed.

(** C10: a node built by the constructor, from leaf metadata or from the
    null pointer, and every clone made by Copy(), has its fake-empty flag
    false, an empty hook list, ReduceHooksRegistered() false and no
    retain-grad transform; after any sequence of operations
    ReduceHooksRegistered() is true exactly when RegisterReduceHook was
    called on the node at least once. *)
Theorem fresh_node_defaults g meta st ops m :
  let n0 := new_GradNodeAccumulation World g meta in
  (is_fake_empty_ n0 = false /\ reduce_hooks_ n0 = [] /\
   ReduceHooksRegistered n0 = false /\ retain_grad_hook_ n0 = None) /\
  (forall n,
     is_fake_empty_ (Copy g n) = false /\ reduce_hooks_ (Copy g n) = [] /\
     ReduceHooksRegistered (Copy g n) = false /\
     retain_grad_hook_ (Copy g n) = None) /\
  exists n',
    (run g ops ((alloc n0 st).2, m)).1 !! (alloc n0 st).1 = Some n' /\
    (ReduceHooksRegistered n' = true <->
     exists h, OpRegisterReduceHook (alloc n0 st).1 h ∈ ops).
Proof.
  intros n0. split; [done|]. split; [done|].
  destruct (run_node g ops _ m _ _ (alloc_lookup_new n0 st))
    as (n' & Hp & _ & Hh).
  exists n'. split; [done|].
  rewrite <- registered_on_elem.
  by rewrite ReduceHooksRegistered_nonempty, Hh.
Qed.

(** ** What the header's own bodies do *)

Lemma SetFakeEmpty_same n : SetFakeEmpty (is_fake_empty_ n) n = n.
Proof. by destruct n. Qed.

Lemma step_inline g op st m p n :
  inline_op op = true ->
  st !! p = Some n ->
  (step g op (st, m)).1 !! p =
    Some (SetFakeEmpty (last_fake_empty p [op] (is_fake_empty_ n)) n) /\
  (step g op (st, m)).2 = m.
Proof.
  intros Hin Hp. destruct op as [| q | | | q | q b]; try discriminate; simpl.
  - split; [|done]. rewrite SetFakeEmpty_same, lookup_alter.
    case_decide; subst; by rewrite ?Hp.
  - unfold Copy_at. destruct (st !! q) as [nq|] eqn:Hq; simpl.
    + split; [|done]. rewrite SetFakeEmpty_same.
      rewrite lookup_insert_ne; [done|].
      apply (alloc_fresh (Copy g nq) st p). by rewrite Hp.
    + by rewrite SetFakeEmpty_same.
  - split; [|done]. rewrite lookup_alter. case_decide; subst.
    + by rewrite Hp.
    + by rewrite SetFakeEmpty_same.
Qed.

Lemma run_inline g ops : forall st m p n,
  Forall (fun op => inline_op op = true) ops ->
  st !! p = Some n ->
  (run g ops (st, m)).1 !! p =
    Some (SetFakeEmpty (last_fake_empty p ops (is_fake_empty_ n)) n) /\
  (run g ops (st, m)).2 = m.
Proof.
  induction ops as [|op ops IH]; intros st m p n Hall Hp.
  - simpl. by rewrite SetFakeEmpty_same.
  - inversion Hall as [|? ? Hop Hrest]; subst.
    destruct (step_inline g op st m p n Hop Hp) as [Hp1 Hm1].
    change (run g (op :: ops) (st, m)) with (run g ops (step g op (st, m))).
    destruct (step g op (st, m)) as [st1 m1]. simpl in Hp1, Hm1. subst m1.
    destruct (IH st1 m p _ Hrest Hp1) as [Hp' Hm'].
    split; [|done]. rewrite Hp'. reflexivity.
Qed.

(** X1: after any sequence of ClearTensorWrappers, Copy and SetFakeEmpty
    calls, on any addresses, a node of the store is still there; its
    fake-empty flag is the argument of the last SetFakeEmpty made on that
    node (its old value if there was none), and its slot counts, forward
    trace, weak reference, hook list and retain-grad transform are what
    they were; the machine is as it was, no callable having run. *)
Theorem inline_ops_only_set_the_flag g ops : forall st m p n,
  Forall (fun op => inline_op op = true) ops ->
  st !! p = Some n ->
  exists n',
    (run g ops (st, m)).1 !! p = Some n' /\
    is_fake_empty_ n' = last_fake_empty p ops (is_fake_empty_ n) /\
    bwd_in_slot_num n' = bwd_in_slot_num n /\
    bwd_out_slot_num n' = bwd_out_slot_num n /\
    forward_trace_ n' = forward_trace_ n /\
    weak_grad_ n' = weak_grad_ n /\
    reduce_hooks_ n' = reduce_hooks_ n /\
    retain_grad_hook_ n' = retain_grad_hook_ n /\
    (run g ops (st, m)).2 = m.
Proof.
  intros st m p n Hall Hp.
  destruct (run_inline g ops st m p n Hall Hp) as [Hp' Hm'].
  exists (SetFakeEmpty (last_fake_empty p ops (is_fake_empty_ n)) n).
  split; [exact Hp'|]. simpl. by repeat split.
Qed.




End NodeFacts.

(** * Concrete runs *)

Section Runs.
Import Sample.

(** Scenario A: two 2x2 tensors, of ones and of twos, through a node with
    three hooks. *)
Example scenario_A :
  operator_call node_three_hooks [[ones22; twos22]] false false machine0 =
    (Ok [[threes22]],
     {| world := [1; 2; 3]%nat;
        trace := [EvAdd ones22 twos22; EvReduceHook 1 threes22;
                  EvReduceHook 2 threes22; EvReduceHook 3 threes22] |}).
Proof. reflexivity. Qed.

(** Scenario B: no contribution at all. *)
Example scenario_B :
  (operator_call leaf_node [[]] false false machine0).1 = Ok [[Undefined]].
Proof. reflexivity. Qed.

(** Scenario C: a fake-empty node ignores its input. *)
Example scenario_C :
  operator_call (SetFakeEmpty true leaf_node) [[ones3]] false false machine0 =
    (Ok [[Undefined]], machine0).
Proof. reflexivity. Qed.

Example shape_mismatch :
  elementwise_sum [ones22; ones3] = Err ShapeMismatch.
Proof. reflexivity. Qed.

Example dtype_mismatch :
  elementwise_sum [ones22; twos22; int_ones22] = Err TypeMismatch.
Proof. reflexivity. Qed.

(** The sample kernel refuses exactly the pairs of defined tensors whose
    element types or shapes differ. *)
Lemma dense_add_mismatch x y :
  (dense_add (Defined x) (Defined y) = inr BadDtype <-> dtype x <> dtype y) /\
  (dense_add (Defined x) (Defined y) = inr BadShape <->
     dtype x = dtype y /\ dims x <> dims y).
Proof.
  unfold dense_add. repeat case_decide; split; split; intros H1;
    try discriminate; try done; by destruct H1.
Qed.

Lemma fake_empty_short_circuit_witness :
  elementwise_sum [ones22; ones3] = Err ShapeMismatch /\
  operator_call (SetFakeEmpty true node_three_hooks) [[ones22; ones3]]
    false false machine0 = (Ok [[Undefined]], machine0).
Proof.
  split; [reflexivity|].
  apply (fake_empty_short_circuit (SetFakeEmpty true node_three_hooks)).
  reflexivity.
Defined.

Lemma copy_is_unbound_and_independent_witness :
  expired heap1 (weak_grad_ leaf_node) = false /\
  exists p' st' c,
    Copy_at globals0 5%positive store1 = Some (p', st') /\
    p' <> 5%positive /\
    st' !! 5%positive = Some leaf_node /\
    st' !! p' = Some c /\
    weak_grad_ c = None /\
    is_fake_empty_ c = false /\
    reduce_hooks_ c = [] /\
    (forall h,
        RegisterReduceHook_at p' h st' !! 5%positive = Some leaf_node /\
        RegisterReduceHook_at p' h st' !! p' = Some (RegisterReduceHook h c)) /\
    (forall h,
        RegisterReduceHook_at 5%positive h st' !! p' = Some c /\
        RegisterReduceHook_at 5%positive h st' !! 5%positive =
          Some (RegisterReduceHook h leaf_node)).
Proof.
  split; [reflexivity|].
  apply (copy_is_unbound_and_independent globals0 store1 5%positive leaf_node).
  reflexivity.
Defined.

Lemma incompatible_gradients_are_fatal_witness :
  (ShapeMismatch = ShapeMismatch \/ ShapeMismatch = TypeMismatch) /\
  exists adds,
    Forall (fun ev => is_add_event ev = true) adds /\
    operator_call node_three_hooks [[ones22; ones3]] false false machine0 =
      (Err ShapeMismatch,
       {| world := world machine0; trace := trace machine0 ++ adds |}).
Proof.
  apply (incompatible_gradients_are_fatal node_three_hooks [ones22; ones3]
           ShapeMismatch false false machine0).
  - reflexivity.
  - reflexivity.
Defined.

(** Against C8 as first stated: the name is not "AccumulationNode". *)
Lemma name_is_not_AccumulationNode :
  name leaf_node <> "AccumulationNode".
Proof. intros Heq. discriminate Heq. Qed.

Lemma inline_ops_only_set_the_flag_witness :
  exists n',
    (run globals0 flag_ops (store1, machine0)).1 !! 5%positive = Some n' /\
    is_fake_empty_ n' = true /\
    bwd_in_slot_num n' = bwd_in_slot_num leaf_node /\
    bwd_out_slot_num n' = bwd_out_slot_num leaf_node /\
    forward_trace_ n' = forward_trace_ leaf_node /\
    weak_grad_ n' = weak_grad_ leaf_node /\
    reduce_hooks_ n' = reduce_hooks_ leaf_node /\
    retain_grad_hook_ n' = retain_grad_hook_ leaf_node /\
    (run globals0 flag_ops (store1, machine0)).2 = machine0.
Proof.
  apply (inline_ops_only_set_the_flag globals0 flag_ops store1 machine0
           5%positive leaf_node).
  - repeat constructor.
  - reflexivity.
Defined.


End Runs.
